(** * Renderer/glyph compatibility validators of the edit tools

    A shallow embedding of the [_check_compatible_renderers] and
    [_check_compatible_vertex_renderer] validators of
    [bokeh/models/tools.py] (classes [BoxEditTool], [PointDrawTool],
    [PolyDrawTool], [FreehandDrawTool] and [PolyEditTool]), and the
    properties the specification states about them; then of the range check
    of [RangeTool] and of [CustomJSHover.from_py_func].

    Every validator is a method reading attributes of [self]; it is modelled
    as a computation that is handed the tool object and gives it back, and
    that either returns a value or raises a Python exception. *)

From Stdlib Require Import List String Ascii Bool ZArith Lia Permutation.
Import ListNotations.

Local Open Scope string_scope.
Local Open Scope list_scope.

(** ** Python computations over [self] *)

Module Py.

(** The only exception the validators can run into: reading an attribute
    of [None]. *)
Inductive Exn : Type :=
| AttributeError (msg : string).

Inductive Outcome (A : Type) : Type :=
| Return (a : A)
| Raise (e : Exn).
Arguments Return {A} a.
Arguments Raise {A} e.

(** A method body: it receives the object state [S] of [self] and yields
    an outcome together with the object state it leaves behind. *)
Definition M (S A : Type) : Type := S -> Outcome A * S.

Definition ret {S A} (a : A) : M S A := fun self => (Return a, self).

Definition raise {S A} (e : Exn) : M S A := fun self => (Raise e, self).

Definition bind {S A B} (m : M S A) (k : A -> M S B) : M S B :=
  fun self =>
    match m self with
    | (Return a, self') => k a self'
    | (Raise e, self') => (Raise e, self')
    end.

(** [self.attr] *)
Definition getattr {S A} (attr : S -> A) : M S A :=
  fun self => (Return (attr self), self).

(** [self.attr = v]; no validator uses it, it is what a mutating method
    would be written with. *)
Definition setattr {S} (update : S -> S) : M S unit :=
  fun self => (Return tt, update self).

(** What a caller observes of a call. *)
Definition outcome {S A} (m : M S A) (self : S) : Outcome A := fst (m self).
Definition final {S A} (m : M S A) (self : S) : S := snd (m self).

End Py.

Import Py.

Notation "x <- m ;; k" := (bind m (fun x => k))
  (at level 61, m at next level, right associativity).

(** ** Python classes, [isinstance] and [type(o).__name__] *)

(** A class object as far as [isinstance] and [__name__] see it: its
    identity (the qualified name), its [__name__], and the identities of its
    proper ancestors.  The method resolution order is the class itself
    followed by them. *)
Record PyClass : Type := mkClass {
  cls_id : string;
  cls_name : string;
  cls_bases : list string
}.

Definition cls_mro (C : PyClass) : list string := cls_id C :: cls_bases C.

(** [issubclass(T, C)]: [C] occurs in the resolution order of [T]. *)
Definition issubclass (T C : PyClass) : bool :=
  existsb (String.eqb (cls_id C)) (cls_mro T).

(** A glyph model object: its class and its other state, of which only the
    identifier is kept. *)
Record Glyph : Type := mkGlyph {
  type : PyClass;
  glyph_id : string
}.

(** [isinstance(o, C)] *)
Definition isinstance (o : Glyph) (C : PyClass) : bool :=
  issubclass (type o) C.

(** [isinstance(o, (C1, ..., Cn))] *)
Definition isinstance_any (o : Glyph) (Cs : list PyClass) : bool :=
  existsb (isinstance o) Cs.

(** Modelled from the spec: the glyph classes imported at line 47
    ([from .glyphs import XYGlyph, Rect, Patches, MultiLine]) are declared in
    [models/glyphs.py], which is absent.  [XYGlyph] is the family of
    point-like glyphs; [Rect], [Patches] and [MultiLine] are concrete
    variants.  The validators and the theorems about all tools use these
    classes through their identity only; the ancestors listed here matter
    for the sample glyphs alone. *)
Definition Glyph_id : string := "bokeh.models.glyphs.Glyph".

Definition XYGlyph : PyClass :=
  mkClass "bokeh.models.glyphs.XYGlyph" "XYGlyph" [Glyph_id].

Definition Rect : PyClass :=
  mkClass "bokeh.models.glyphs.Rect" "Rect" [cls_id XYGlyph; Glyph_id].

Definition Patches : PyClass :=
  mkClass "bokeh.models.glyphs.Patches" "Patches" [Glyph_id].

Definition MultiLine : PyClass :=
  mkClass "bokeh.models.glyphs.MultiLine" "MultiLine" [Glyph_id].

(** Modelled from the spec: [Circle], the point-like glyph the spec's
    examples use as the offending one; a member of the [XYGlyph] family. *)
Definition Circle : PyClass :=
  mkClass "bokeh.models.markers.Circle" "Circle" [cls_id XYGlyph; Glyph_id].

(** Modelled from the spec: the [Renderer] class ([models/renderers.py]) is
    absent; a renderer owns exactly one [glyph].  The identifier stands for
    everything else a renderer carries. *)
Record Renderer : Type := mkRenderer {
  renderer_id : string;
  glyph : Glyph
}.

(** ** Statement-level helpers *)

(** [for x in xs: body], where the body updates one local variable. *)
Definition for_in {A B} (xs : list A) (body : A -> B -> B) (local : B) : B :=
  fold_left (fun acc x => body x acc) xs local.

(** [l.append(x)] on a local list. *)
Definition append {A} (l : list A) (x : A) : list A := l ++ [x].

(** Truth value of a list: [if l:]. *)
Definition truthy {A} (l : list A) : bool :=
  match l with
  | [] => false
  | _ :: _ => true
  end.

(** [sep.join(parts)] *)
Definition join (sep : string) (parts : list string) : string :=
  String.concat sep parts.

(** [pre + "%s" + post % arg] for a format string with one [%s]. *)
Definition format_s (pre post arg : string) : string := pre ++ arg ++ post.

(** [obj.glyph] where [obj] may be [None]. *)
Definition getattr_glyph {S} (obj : option Renderer) : M S Glyph :=
  match obj with
  | Some renderer => ret (glyph renderer)
  | None => raise (AttributeError "'NoneType' object has no attribute 'glyph'")
  end.

(** [obj is None] *)
Definition is_None {A} (obj : option A) : bool :=
  match obj with
  | None => true
  | Some _ => false
  end.

(** [sub in s] on strings. *)
Fixpoint contains (sub s : string) : bool :=
  if String.prefix sub s then true
  else match s with
       | EmptyString => false
       | String _ s' => contains sub s'
       end.

(** ** Validation diagnostics *)

(** The error codes imported from [core.validation.errors] (lines 38-42)
    that the edit tools use. *)
Inductive ErrorCode : Type :=
| INCOMPATIBLE_BOX_EDIT_RENDERER
| INCOMPATIBLE_POINT_DRAW_RENDERER
| INCOMPATIBLE_POLY_DRAW_RENDERER
| INCOMPATIBLE_POLY_EDIT_RENDERER
| INCOMPATIBLE_POLY_EDIT_VERTEX_RENDERER.

Record Diagnostic : Type := mkDiagnostic {
  diag_code : ErrorCode;
  diag_message : string
}.

(** Modelled from the spec: the [error] decorator ([core/validation]) is
    absent.  The decorated validator returns zero or one diagnostics: none
    when the body returns [None], otherwise one diagnostic under the
    decorator's code carrying the returned message. *)
Definition error {S} (code : ErrorCode) (func : M S (option string))
  : M S (list Diagnostic) :=
  extra <- func ;;
  match extra with
  | None => ret []
  | Some msg => ret [mkDiagnostic code msg]
  end.

(** ** The tool classes *)

(** A value of [Either(Bool, Int, Float, Date, Datetime, Color)]; the
    variants that are not booleans or integers are kept by their textual
    form. *)
Inductive PropValue : Type :=
| Unset
| BoolValue (b : bool)
| IntValue (n : Z)
| OtherValue (repr : string).

(** [core.enums.Dimensions] *)
Inductive Dimensions : Type :=
| width
| height
| both.

(** [class EditTool(Gesture)]: the attributes every edit tool inherits. *)
Module EditTool.

Record t : Type := mk {
  custom_tooltip : option string;
  empty_value : PropValue;
  custom_icon : option string;
  renderers : list Renderer
}.

End EditTool.

(** [class BoxEditTool(EditTool, Drag, Tap)] *)
Module BoxEditTool.

Record t : Type := mk {
  base : EditTool.t;
  dimensions : Dimensions;
  num_objects : Z
}.

Definition renderers (self : t) : list Renderer := EditTool.renderers (base self).

Definition _check_compatible_renderers : M t (list Diagnostic) :=
  error INCOMPATIBLE_BOX_EDIT_RENDERER (
    renderers <- getattr renderers ;;
    let incompatible_renderers :=
      for_in renderers (fun renderer incompatible_renderers =>
        if negb (isinstance (glyph renderer) Rect)
        then append incompatible_renderers renderer
        else incompatible_renderers) [] in
    if truthy incompatible_renderers then
      let glyph_types :=
        join ", " (map (fun renderer => cls_name (type (glyph renderer)))
                       incompatible_renderers) in
      ret (Some (format_s "" " glyph type(s) found." glyph_types))
    else ret None).

End BoxEditTool.

(** [class PointDrawTool(EditTool, Drag, Tap)] *)
Module PointDrawTool.

Record t : Type := mk {
  base : EditTool.t;
  add : bool;
  drag : bool;
  num_objects : Z
}.

Definition renderers (self : t) : list Renderer := EditTool.renderers (base self).

Definition _check_compatible_renderers : M t (list Diagnostic) :=
  error INCOMPATIBLE_POINT_DRAW_RENDERER (
    renderers <- getattr renderers ;;
    let incompatible_renderers :=
      for_in renderers (fun renderer incompatible_renderers =>
        if negb (isinstance (glyph renderer) XYGlyph)
        then append incompatible_renderers renderer
        else incompatible_renderers) [] in
    if truthy incompatible_renderers then
      let glyph_types :=
        join ", " (map (fun renderer => cls_name (type (glyph renderer)))
                       incompatible_renderers) in
      ret (Some (format_s "" " glyph type(s) found." glyph_types))
    else ret None).

End PointDrawTool.

(** [class PolyDrawTool(EditTool, Drag, Tap)] *)
Module PolyDrawTool.

Record t : Type := mk {
  base : EditTool.t;
  drag : bool;
  num_objects : Z;
  vertex_renderer : option Renderer
}.

Definition renderers (self : t) : list Renderer := EditTool.renderers (base self).

Definition _check_compatible_renderers : M t (list Diagnostic) :=
  error INCOMPATIBLE_POLY_DRAW_RENDERER (
    renderers <- getattr renderers ;;
    let incompatible_renderers :=
      for_in renderers (fun renderer incompatible_renderers =>
        if negb (isinstance_any (glyph renderer) [MultiLine; Patches])
        then append incompatible_renderers renderer
        else incompatible_renderers) [] in
    if truthy incompatible_renderers then
      let glyph_types :=
        join ", " (map (fun renderer => cls_name (type (glyph renderer)))
                       incompatible_renderers) in
      ret (Some (format_s "" " glyph type(s) found." glyph_types))
    else ret None).

Definition _check_compatible_vertex_renderer : M t (list Diagnostic) :=
  error INCOMPATIBLE_POLY_EDIT_VERTEX_RENDERER (
    vertex <- getattr vertex_renderer ;;
    if is_None vertex then ret None
    else
      vertex <- getattr vertex_renderer ;;
      glyph <- getattr_glyph vertex ;;
      if negb (isinstance glyph XYGlyph)
      then ret (Some (format_s "glyph type " " found." (cls_name (type glyph))))
      else ret None).

End PolyDrawTool.

(** [class FreehandDrawTool(EditTool, Drag, Tap)] *)
Module FreehandDrawTool.

Record t : Type := mk {
  base : EditTool.t;
  num_objects : Z
}.

Definition renderers (self : t) : list Renderer := EditTool.renderers (base self).

Definition _check_compatible_renderers : M t (list Diagnostic) :=
  error INCOMPATIBLE_POLY_DRAW_RENDERER (
    renderers <- getattr renderers ;;
    let incompatible_renderers :=
      for_in renderers (fun renderer incompatible_renderers =>
        if negb (isinstance_any (glyph renderer) [MultiLine; Patches])
        then append incompatible_renderers renderer
        else incompatible_renderers) [] in
    if truthy incompatible_renderers then
      let glyph_types :=
        join ", " (map (fun renderer => cls_name (type (glyph renderer)))
                       incompatible_renderers) in
      ret (Some (format_s "" " glyph type(s) found." glyph_types))
    else ret None).

End FreehandDrawTool.

(** [class PolyEditTool(EditTool, Drag, Tap)] *)
Module PolyEditTool.

Record t : Type := mk {
  base : EditTool.t;
  vertex_renderer : option Renderer
}.

Definition renderers (self : t) : list Renderer := EditTool.renderers (base self).

Definition _check_compatible_vertex_renderer : M t (list Diagnostic) :=
  error INCOMPATIBLE_POLY_EDIT_VERTEX_RENDERER (
    vertex <- getattr vertex_renderer ;;
    glyph <- getattr_glyph vertex ;;
    if negb (isinstance glyph XYGlyph)
    then ret (Some (format_s "glyph type " " found." (cls_name (type glyph))))
    else ret None).

Definition _check_compatible_renderers : M t (list Diagnostic) :=
  error INCOMPATIBLE_POLY_EDIT_RENDERER (
    renderers <- getattr renderers ;;
    let incompatible_renderers :=
      for_in renderers (fun renderer incompatible_renderers =>
        if negb (isinstance_any (glyph renderer) [MultiLine; Patches])
        then append incompatible_renderers renderer
        else incompatible_renderers) [] in
    if truthy incompatible_renderers then
      let glyph_types :=
        join ", " (map (fun renderer => cls_name (type (glyph renderer)))
                       incompatible_renderers) in
      ret (Some (format_s "" " glyph type(s) found." glyph_types))
    else ret None).

End PolyEditTool.

(** ** Tool instances of any edit-tool class *)

Inductive ToolKind : Type :=
| box_edit
| point_draw
| poly_draw
| freehand_draw
| poly_edit.

Inductive Tool : Type :=
| BoxEdit (self : BoxEditTool.t)
| PointDraw (self : PointDrawTool.t)
| PolyDraw (self : PolyDrawTool.t)
| FreehandDraw (self : FreehandDrawTool.t)
| PolyEdit (self : PolyEditTool.t).

Definition kind (tool : Tool) : ToolKind :=
  match tool with
  | BoxEdit _ => box_edit
  | PointDraw _ => point_draw
  | PolyDraw _ => poly_draw
  | FreehandDraw _ => freehand_draw
  | PolyEdit _ => poly_edit
  end.

(** [tool.renderers], inherited from [EditTool] by every class. *)
Definition renderers (tool : Tool) : list Renderer :=
  match tool with
  | BoxEdit self => BoxEditTool.renderers self
  | PointDraw self => PointDrawTool.renderers self
  | PolyDraw self => PolyDrawTool.renderers self
  | FreehandDraw self => FreehandDrawTool.renderers self
  | PolyEdit self => PolyEditTool.renderers self
  end.

(** [tool.vertex_renderer] for the classes that declare the attribute;
    [None] elsewhere. *)
Definition vertex_renderer (tool : Tool) : option Renderer :=
  match tool with
  | PolyDraw self => PolyDrawTool.vertex_renderer self
  | PolyEdit self => PolyEditTool.vertex_renderer self
  | _ => None
  end.

(** Calling a method of class [C] on a tool that is an instance of [C]. *)
Definition call {S A} (inj : S -> Tool) (method : M S A) (self : S)
  : Outcome A * Tool :=
  let (result, self') := method self in (result, inj self').

(** [tool._check_compatible_renderers()], dispatched on the class. *)
Definition check_compatible_renderers (tool : Tool)
  : Outcome (list Diagnostic) * Tool :=
  match tool with
  | BoxEdit self => call BoxEdit BoxEditTool._check_compatible_renderers self
  | PointDraw self => call PointDraw PointDrawTool._check_compatible_renderers self
  | PolyDraw self => call PolyDraw PolyDrawTool._check_compatible_renderers self
  | FreehandDraw self =>
      call FreehandDraw FreehandDrawTool._check_compatible_renderers self
  | PolyEdit self => call PolyEdit PolyEditTool._check_compatible_renderers self
  end.

(** [tool._check_compatible_vertex_renderer()] for the classes that define
    the method; [None] for a class without it. *)
Definition check_compatible_vertex_renderer (tool : Tool)
  : option (Outcome (list Diagnostic) * Tool) :=
  match tool with
  | PolyDraw self =>
      Some (call PolyDraw PolyDrawTool._check_compatible_vertex_renderer self)
  | PolyEdit self =>
      Some (call PolyEdit PolyEditTool._check_compatible_vertex_renderer self)
  | _ => None
  end.

(** ** The specification's compatibility table *)

(** Per tool kind, the allowed glyph variants, as the specification tabulates
    them: box-edit, [Rect]; point-draw, the [XYGlyph] family; poly-draw,
    freehand-draw and poly-edit, [Patches] or [MultiLine].  A glyph is of a
    variant when its class is that class or descends from it. *)
Definition allowed_glyph (k : ToolKind) (g : Glyph) : bool :=
  match k with
  | box_edit => isinstance g Rect
  | point_draw => isinstance g XYGlyph
  | poly_draw | freehand_draw | poly_edit =>
      isinstance g Patches || isinstance g MultiLine
  end.

(** The error code each class's [renderers] validator is decorated with. *)
Definition renderers_error_code (k : ToolKind) : ErrorCode :=
  match k with
  | box_edit => INCOMPATIBLE_BOX_EDIT_RENDERER
  | point_draw => INCOMPATIBLE_POINT_DRAW_RENDERER
  | poly_draw => INCOMPATIBLE_POLY_DRAW_RENDERER
  | freehand_draw => INCOMPATIBLE_POLY_DRAW_RENDERER
  | poly_edit => INCOMPATIBLE_POLY_EDIT_RENDERER
  end.

(** The glyph type names of the renderers of [rs] that are not compatible,
    in the order of [rs], each as often as it occurs. *)
Definition offending_names (compatible : Glyph -> bool) (rs : list Renderer)
  : list string :=
  map (fun r => cls_name (type (glyph r)))
      (filter (fun r => negb (compatible (glyph r))) rs).

(** The message the specification describes for a list of offending glyph
    type names: the names joined by a comma and a space, then the fixed
    suffix. *)
Definition offenders_message (names : list string) : string :=
  String.concat ", " names ++ " glyph type(s) found.".

(** The specification's validator: nothing when no renderer offends,
    otherwise one diagnostic naming all offenders. *)
Definition report (code : ErrorCode) (compatible : Glyph -> bool)
  (rs : list Renderer) : list Diagnostic :=
  match offending_names compatible rs with
  | [] => []
  | names => [mkDiagnostic code (offenders_message names)]
  end.

(** The specification's vertex-renderer rule for a renderer that is set: a
    diagnostic naming the glyph type exactly when the glyph is not of the
    [XYGlyph] family. *)
Definition vertex_report (r : Renderer) : list Diagnostic :=
  if isinstance (glyph r) XYGlyph then []
  else [mkDiagnostic INCOMPATIBLE_POLY_EDIT_VERTEX_RENDERER
          ("glyph type " ++ cls_name (type (glyph r)) ++ " found.")].

(** The variant tag of a renderer's glyph. *)
Definition glyph_tag (r : Renderer) : PyClass := type (glyph r).

(** ** Sample objects *)

Definition renderer_of (C : PyClass) (id : string) : Renderer :=
  mkRenderer id (mkGlyph C (id ++ "-glyph")).

Definition edit_tool (rs : list Renderer) : EditTool.t :=
  EditTool.mk None Unset None rs.

Definition sample_box_edit (rs : list Renderer) : BoxEditTool.t :=
  BoxEditTool.mk (edit_tool rs) both 0%Z.

Definition sample_poly_draw (rs : list Renderer) (v : option Renderer)
  : PolyDrawTool.t :=
  PolyDrawTool.mk (edit_tool rs) true 0%Z v.

Definition sample_poly_edit (rs : list Renderer) (v : option Renderer)
  : PolyEditTool.t :=
  PolyEditTool.mk (edit_tool rs) v.

(** ** [RangeTool] *)

(** The range and annotation models ([models/ranges.py],
    [models/annotations.py]) are declared outside this file; the validator
    looks only at whether a range is set, so an instance is kept by its
    identifier. *)
Record Range1d : Type := mkRange1d {
  range_id : string
}.

Record BoxAnnotation : Type := mkBoxAnnotation {
  annotation_id : string
}.

(** [class RangeTool(Drag)] *)
Module RangeTool.

Record t : Type := mk {
  x_range : option Range1d;
  x_interaction : bool;
  y_range : option Range1d;
  y_interaction : bool;
  overlay : option BoxAnnotation
}.

(** The function under [@error(NO_RANGE_TOOL_RANGES)]: the message it
    returns, or [None].  [a and b] evaluates [b] only when [a] holds. *)
Definition _check_no_range_tool_ranges : M t (option string) :=
  x <- getattr x_range ;;
  if is_None x then
    y <- getattr y_range ;;
    if is_None y then
      ret (Some "At least one of RangeTool.x_range or RangeTool.y_range must be configured")
    else ret None
  else ret None.

End RangeTool.

(** ** [CustomJSHover.from_py_func] *)

(** [dict] values with string keys, in insertion order. *)
Module PyDict.

Definition t (V : Type) : Type := list (string * V).

(** [d[k] = v]: an existing key keeps its place and takes the new value, a
    new key goes last. *)
Fixpoint set {V} (d : t V) (k : string) (v : V) : t V :=
  match d with
  | [] => [(k, v)]
  | (k', v') :: d' =>
      if String.eqb k k' then (k, v) :: d' else (k', v') :: set d' k v
  end.

(** [d.get(k)] *)
Fixpoint get {V} (d : t V) (k : string) : option V :=
  match d with
  | [] => None
  | (k', v') :: d' => if String.eqb k k' then Some v' else get d' k
  end.

(** [dict(pairs)]: the pairs are inserted from left to right. *)
Definition of_pairs {V} (pairs : list (string * V)) : t V :=
  fold_left (fun d kv => set d (fst kv) (snd kv)) pairs [].

(** [list(d.keys())] *)
Definition keys {V} (d : t V) : list string := map fst d.

End PyDict.

Module CustomJSHover.

(** The exceptions [from_py_func] ends in: the [ValueError]s it raises
    itself, and whatever [import_required] raises. *)
Inductive Exn : Type :=
| ValueError (msg : string)
| ImportFailure (exception msg : string).

Inductive Result (A : Type) : Type :=
| Returns (a : A)
| Raises (e : Exn).
Arguments Returns {A} a.
Arguments Raises {A} e.

(** A Python object as far as [isinstance] sees it. *)
Record PyObject : Type := mkObject {
  ob_type : PyClass;
  ob_repr : string
}.

(** [Model], imported at line 43 from [..model]; [isinstance] uses its
    identity only, its ancestors are not listed. *)
Definition Model : PyClass := mkClass "bokeh.model.Model" "Model" [].

(** A function object as far as [pscript_compile] observes it through
    helpers declared outside this file: [param_info] is what
    [get_param_info(signature(f))] returns, the names of the parameters and
    the default values. *)
Record PyFunction : Type := mkFunction {
  fn_name : string;
  param_info : list string * list PyObject
}.


(** The [pscript] module that [import_required] hands back: its function
    [py2js(code, new_name)]. *)
Record PScript : Type := mkPScript {
  py2js : PyFunction -> string -> string
}.


Definition newline : string := String (ascii_of_nat 10) EmptyString.


(** [len(l)], a Python integer. *)
Definition len {A} (l : list A) : Z := Z.of_nat (List.length l).

(** The nested function [pscript_compile(code)], closed over [pscript]. *)
Definition pscript_compile (pscript : PScript) (code : PyFunction)
  : Result (string * PyDict.t PyObject) :=
  let '(all_names, default_values) := param_info code in
  if negb (len all_names - len default_values =? 0)%Z then
    Raises (ValueError "Function may only contain keyword arguments.")
  else if truthy default_values
          && negb (existsb (fun value => issubclass (ob_type value) Model)
                     default_values) then
    Raises (ValueError "Default value must be a Bokeh Model.")
  else
    let func_kwargs := PyDict.of_pairs (combine all_names default_values) in
    let code' :=
      (py2js pscript code "transformer"
       ++ format_s "return transformer(" (");" ++ newline)
            (join ", " all_names))%string in
    Returns (code', func_kwargs).



End CustomJSHover.

(** ** Assigning to a tool's attributes *)

(** [tool.renderers = rs] *)
Definition set_renderers (tool : Tool) (rs : list Renderer) : Tool :=
  let assign (b : EditTool.t) :=
    EditTool.mk (EditTool.custom_tooltip b) (EditTool.empty_value b)
      (EditTool.custom_icon b) rs in
  match tool with
  | BoxEdit self =>
      BoxEdit (BoxEditTool.mk (assign (BoxEditTool.base self))
                 (BoxEditTool.dimensions self) (BoxEditTool.num_objects self))
  | PointDraw self =>
      PointDraw (PointDrawTool.mk (assign (PointDrawTool.base self))
                   (PointDrawTool.add self) (PointDrawTool.drag self)
                   (PointDrawTool.num_objects self))
  | PolyDraw self =>
      PolyDraw (PolyDrawTool.mk (assign (PolyDrawTool.base self))
                  (PolyDrawTool.drag self) (PolyDrawTool.num_objects self)
                  (PolyDrawTool.vertex_renderer self))
  | FreehandDraw self =>
      FreehandDraw (FreehandDrawTool.mk (assign (FreehandDrawTool.base self))
                      (FreehandDrawTool.num_objects self))
  | PolyEdit self =>
      PolyEdit (PolyEditTool.mk (assign (PolyEditTool.base self))
                  (PolyEditTool.vertex_renderer self))
  end.

(** * Properties *)

(** ** The loop and the string helpers *)

(** The collecting loop of every [renderers] validator is a filter. *)
Lemma for_in_collect {A} (keep : A -> bool) (xs acc : list A) :
  for_in xs (fun x acc => if keep x then append acc x else acc) acc
  = acc ++ filter keep xs.
Proof.
  unfold for_in. revert acc.
  induction xs as [|x xs IH]; intros acc; simpl.
  - now rewrite app_nil_r.
  - rewrite IH. destruct (keep x); unfold append.
    + now rewrite <- app_assoc.
    + reflexivity.
Qed.

Lemma prefix_app (s t : string) : String.prefix s (s ++ t) = true.
Proof.
  induction s as [|a s IH]; simpl.
  - now destruct t.
  - destruct (ascii_dec a a) as [_|ne]; [exact IH | now elim ne].
Qed.

Lemma contains_unfold (sub s : string) :
  contains sub s =
  if String.prefix sub s then true
  else match s with
       | EmptyString => false
       | String _ s' => contains sub s'
       end.
Proof. now destruct s. Qed.

(** A string contains each of its prefixes. *)
Lemma contains_prefix (sub rest : string) : contains sub (sub ++ rest) = true.
Proof. rewrite contains_unfold. now rewrite prefix_app. Qed.

(** ** What each validator computes *)

(** The shared body of the five [_check_compatible_renderers] methods, for
    the attribute reader [get] and the class test [compatible]. *)
Lemma renderers_body_report {S} (code : ErrorCode) (get : S -> list Renderer)
  (compatible : Glyph -> bool) (self : S) :
  error code (
    renderers <- getattr get ;;
    let incompatible_renderers :=
      for_in renderers (fun renderer incompatible_renderers =>
        if negb (compatible (glyph renderer))
        then append incompatible_renderers renderer
        else incompatible_renderers) [] in
    if truthy incompatible_renderers then
      let glyph_types :=
        join ", " (map (fun renderer => cls_name (type (glyph renderer)))
                       incompatible_renderers) in
      ret (Some (format_s "" " glyph type(s) found." glyph_types))
    else ret None) self
  = (Return (report code compatible (get self)), self).
Proof.
  unfold error, bind, getattr. cbv zeta.
  rewrite (for_in_collect (fun r => negb (compatible (glyph r)))). simpl app.
  unfold report, offending_names.
  destruct (filter _ (get self)) as [|r offenders]; reflexivity.
Qed.

Lemma report_ext (code : ErrorCode) (p q : Glyph -> bool) (rs : list Renderer) :
  (forall g, p g = q g) -> report code p rs = report code q rs.
Proof.
  intros Hpq. unfold report, offending_names.
  rewrite (filter_ext (fun r => negb (p (glyph r))) (fun r => negb (q (glyph r)))).
  - reflexivity.
  - intros r. now rewrite Hpq.
Qed.

Lemma isinstance_any_poly (g : Glyph) :
  isinstance_any g [MultiLine; Patches] = allowed_glyph poly_draw g.
Proof.
  unfold isinstance_any, allowed_glyph. simpl.
  rewrite orb_false_r. apply orb_comm.
Qed.

Lemma BoxEditTool_renderers_report (self : BoxEditTool.t) :
  BoxEditTool._check_compatible_renderers self
  = (Return (report INCOMPATIBLE_BOX_EDIT_RENDERER (allowed_glyph box_edit)
               (BoxEditTool.renderers self)), self).
Proof. apply (renderers_body_report _ _ (fun g => isinstance g Rect)). Qed.

Lemma PointDrawTool_renderers_report (self : PointDrawTool.t) :
  PointDrawTool._check_compatible_renderers self
  = (Return (report INCOMPATIBLE_POINT_DRAW_RENDERER (allowed_glyph point_draw)
               (PointDrawTool.renderers self)), self).
Proof. apply (renderers_body_report _ _ (fun g => isinstance g XYGlyph)). Qed.

Lemma PolyDrawTool_renderers_report (self : PolyDrawTool.t) :
  PolyDrawTool._check_compatible_renderers self
  = (Return (report INCOMPATIBLE_POLY_DRAW_RENDERER (allowed_glyph poly_draw)
               (PolyDrawTool.renderers self)), self).
Proof.
  rewrite <- (report_ext _ _ _ _ isinstance_any_poly).
  apply (renderers_body_report _ _ (fun g => isinstance_any g [MultiLine; Patches])).
Qed.

Lemma FreehandDrawTool_renderers_report (self : FreehandDrawTool.t) :
  FreehandDrawTool._check_compatible_renderers self
  = (Return (report INCOMPATIBLE_POLY_DRAW_RENDERER (allowed_glyph freehand_draw)
               (FreehandDrawTool.renderers self)), self).
Proof.
  rewrite <- (report_ext _ _ _ _ isinstance_any_poly).
  apply (renderers_body_report _ _ (fun g => isinstance_any g [MultiLine; Patches])).
Qed.

Lemma PolyEditTool_renderers_report (self : PolyEditTool.t) :
  PolyEditTool._check_compatible_renderers self
  = (Return (report INCOMPATIBLE_POLY_EDIT_RENDERER (allowed_glyph poly_edit)
               (PolyEditTool.renderers self)), self).
Proof.
  rewrite <- (report_ext _ _ _ _ isinstance_any_poly).
  apply (renderers_body_report _ _ (fun g => isinstance_any g [MultiLine; Patches])).
Qed.

(** Every class's [renderers] validator returns the specification's report
    for its kind and hands the tool back as it received it. *)
Lemma check_compatible_renderers_report (tool : Tool) :
  check_compatible_renderers tool
  = (Return (report (renderers_error_code (kind tool))
               (allowed_glyph (kind tool)) (renderers tool)), tool).
Proof.
  destruct tool as [self|self|self|self|self]; unfold check_compatible_renderers, call.
  - now rewrite BoxEditTool_renderers_report.
  - now rewrite PointDrawTool_renderers_report.
  - now rewrite PolyDrawTool_renderers_report.
  - now rewrite FreehandDrawTool_renderers_report.
  - now rewrite PolyEditTool_renderers_report.
Qed.

(** The vertex validator of [PolyDrawTool]: silent without a vertex
    renderer, the vertex rule otherwise. *)
Lemma PolyDrawTool_vertex_report (self : PolyDrawTool.t) :
  PolyDrawTool._check_compatible_vertex_renderer self
  = (Return match PolyDrawTool.vertex_renderer self with
            | None => []
            | Some r => vertex_report r
            end, self).
Proof.
  destruct self as [b d n [r|]];
    cbv [PolyDrawTool._check_compatible_vertex_renderer PolyDrawTool.vertex_renderer
         error bind getattr is_None getattr_glyph ret raise format_s
         vertex_report]; [|reflexivity].
  now destruct (isinstance (glyph r) XYGlyph).
Qed.

(** The vertex validator of [PolyEditTool]: the vertex rule for a renderer
    that is set, an [AttributeError] without one. *)
Lemma PolyEditTool_vertex_report (self : PolyEditTool.t) :
  PolyEditTool._check_compatible_vertex_renderer self
  = (match PolyEditTool.vertex_renderer self with
     | None => Raise (AttributeError "'NoneType' object has no attribute 'glyph'")
     | Some r => Return (vertex_report r)
     end, self).
Proof.
  destruct self as [b [r|]];
    cbv [PolyEditTool._check_compatible_vertex_renderer PolyEditTool.vertex_renderer
         error bind getattr is_None getattr_glyph ret raise format_s
         vertex_report]; [|reflexivity].
  now destruct (isinstance (glyph r) XYGlyph).
Qed.

(** ** Offending glyph names *)

Lemma offending_names_nil (compatible : Glyph -> bool) (rs : list Renderer) :
  offending_names compatible rs = [] <->
  Forall (fun r => compatible (glyph r) = true) rs.
Proof.
  unfold offending_names. induction rs as [|r rs IH]; simpl.
  - split; [constructor | reflexivity].
  - destruct (compatible (glyph r)) eqn:E; simpl.
    + rewrite IH. split.
      * now constructor.
      * intros H. now inversion H.
    + split; [discriminate|]. intros H. inversion H; congruence.
Qed.

Lemma offending_names_cons (compatible : Glyph -> bool) (rs : list Renderer) :
  Exists (fun r => compatible (glyph r) = false) rs ->
  exists name names, offending_names compatible rs = name :: names.
Proof.
  intros Hex. destruct (offending_names compatible rs) as [|name names] eqn:E.
  - apply offending_names_nil in E. apply Exists_exists in Hex.
    destruct Hex as (r & Hin & Hr). rewrite Forall_forall in E.
    specialize (E r Hin). congruence.
  - now exists name, names.
Qed.

(** ** The [renderers] validators *)

(** C1: for every edit tool kind, when every renderer of [renderers] carries
    a glyph whose variant is in the kind's allowed set (box-edit: Rect;
    point-draw: the XYGlyph family; poly-draw, freehand-draw, poly-edit:
    Patches or MultiLine), the renderer-compatibility check returns no
    diagnostic. *)
Theorem compatible_renderers_no_diagnostic (tool : Tool) :
  Forall (fun r => allowed_glyph (kind tool) (glyph r) = true) (renderers tool) ->
  check_compatible_renderers tool = (Return [], tool).
Proof.
  intros Hall. rewrite check_compatible_renderers_report.
  unfold report. apply offending_names_nil in Hall. now rewrite Hall.
Qed.

Lemma compatible_renderers_no_diagnostic_witness :
  let tool := PolyEdit (sample_poly_edit
                [renderer_of Patches "r1"; renderer_of MultiLine "r2";
                 renderer_of Patches "r3"]
                (Some (renderer_of Circle "v"))) in
  Forall (fun r => allowed_glyph (kind tool) (glyph r) = true) (renderers tool)
  /\ check_compatible_renderers tool = (Return [], tool).
Proof.
  intros tool.
  assert (H : Forall (fun r => allowed_glyph (kind tool) (glyph r) = true)
                (renderers tool)) by (repeat constructor).
  split; [exact H | exact (compatible_renderers_no_diagnostic tool H)].
Defined.

(** C7: for every edit tool kind, an empty [renderers] list yields no
    diagnostic. *)
Theorem empty_renderers_no_diagnostic (tool : Tool) :
  renderers tool = [] ->
  check_compatible_renderers tool = (Return [], tool).
Proof.
  intros Hnil. rewrite check_compatible_renderers_report. now rewrite Hnil.
Qed.

Lemma empty_renderers_no_diagnostic_witness :
  let tool := FreehandDraw (FreehandDrawTool.mk (edit_tool []) 3%Z) in
  renderers tool = [] /\ check_compatible_renderers tool = (Return [], tool).
Proof.
  intros tool.
  split; [reflexivity | exact (empty_renderers_no_diagnostic tool eq_refl)].
Defined.

(** C6: for every edit tool with at least one renderer whose glyph is not
    allowed, the renderer-compatibility check produces a single diagnostic;
    its message is the type names of all offending glyphs in input order,
    repetitions kept, joined by ", ", followed by " glyph type(s) found.". *)
Theorem incompatible_renderers_one_diagnostic (tool : Tool) :
  Exists (fun r => allowed_glyph (kind tool) (glyph r) = false) (renderers tool) ->
  fst (check_compatible_renderers tool)
  = Return [mkDiagnostic (renderers_error_code (kind tool))
              (String.concat ", "
                 (map (fun r => cls_name (type (glyph r)))
                    (filter (fun r => negb (allowed_glyph (kind tool) (glyph r)))
                       (renderers tool)))
               ++ " glyph type(s) found.")].
Proof.
  intros Hex. rewrite check_compatible_renderers_report. simpl fst.
  destruct (offending_names_cons _ _ Hex) as (name & names & E).
  unfold report. rewrite E. unfold offenders_message. rewrite <- E.
  reflexivity.
Qed.

Lemma incompatible_renderers_one_diagnostic_witness :
  let tool := BoxEdit (sample_box_edit
                [renderer_of Patches "r1"; renderer_of Circle "r2";
                 renderer_of Rect "r3"; renderer_of Circle "r4"]) in
  Exists (fun r => allowed_glyph (kind tool) (glyph r) = false) (renderers tool)
  /\ fst (check_compatible_renderers tool)
     = Return [mkDiagnostic INCOMPATIBLE_BOX_EDIT_RENDERER
                 "Patches, Circle, Circle glyph type(s) found."].
Proof.
  intros tool.
  assert (H : Exists (fun r => allowed_glyph (kind tool) (glyph r) = false)
                (renderers tool)) by (apply Exists_cons_hd; reflexivity).
  split; [exact H | exact (incompatible_renderers_one_diagnostic tool H)].
Defined.

(** C2: a box-edit tool whose [renderers] list holds exactly one renderer,
    with a glyph that is not a Rect, gets a diagnostic whose message contains
    the name of that glyph's type. *)
Theorem box_edit_single_incompatible_renderer
  (self : BoxEditTool.t) (r : Renderer) :
  BoxEditTool.renderers self = [r] ->
  isinstance (glyph r) Rect = false ->
  exists d,
    outcome BoxEditTool._check_compatible_renderers self = Return [d]
    /\ contains (cls_name (type (glyph r))) (diag_message d) = true.
Proof.
  intros Hone Hrect. unfold outcome.
  rewrite BoxEditTool_renderers_report, Hone.
  unfold report, offending_names. simpl. rewrite Hrect. simpl.
  eexists. split; [reflexivity|].
  unfold offenders_message. simpl. apply contains_prefix.
Qed.

Lemma box_edit_single_incompatible_renderer_witness :
  let r := renderer_of Circle "r1" in
  let self := sample_box_edit [r] in
  BoxEditTool.renderers self = [r]
  /\ isinstance (glyph r) Rect = false
  /\ exists d,
       outcome BoxEditTool._check_compatible_renderers self = Return [d]
       /\ contains "Circle" (diag_message d) = true.
Proof.
  intros r self. split; [reflexivity|]. split; [reflexivity|].
  exact (box_edit_single_incompatible_renderer self r eq_refl eq_refl).
Defined.

(** C3: for a poly-draw tool whose [renderers] list is a Patches renderer,
    a Circle renderer and a MultiLine renderer, the renderer-compatibility
    check returns exactly one diagnostic; its message names "Circle" and
    names neither "Patches" nor "MultiLine". *)
Theorem poly_draw_reports_only_circle
  (self : PolyDrawTool.t) (r1 r2 r3 : Renderer) :
  PolyDrawTool.renderers self = [r1; r2; r3] ->
  glyph_tag r1 = Patches -> glyph_tag r2 = Circle -> glyph_tag r3 = MultiLine ->
  exists d,
    outcome PolyDrawTool._check_compatible_renderers self = Return [d]
    /\ diag_message d = "Circle glyph type(s) found."
    /\ contains "Circle" (diag_message d) = true
    /\ contains "Patches" (diag_message d) = false
    /\ contains "MultiLine" (diag_message d) = false.
Proof.
  intros Hrs H1 H2 H3. unfold outcome.
  rewrite PolyDrawTool_renderers_report, Hrs.
  unfold glyph_tag in *.
  unfold report, offending_names, allowed_glyph, isinstance. simpl filter.
  rewrite H1, H2, H3. simpl.
  rewrite H2. eexists. repeat split.
Qed.

Lemma poly_draw_reports_only_circle_witness :
  let r1 := renderer_of Patches "r1" in
  let r2 := renderer_of Circle "r2" in
  let r3 := renderer_of MultiLine "r3" in
  let self := sample_poly_draw [r1; r2; r3] None in
  exists d,
    outcome PolyDrawTool._check_compatible_renderers self = Return [d]
    /\ diag_message d = "Circle glyph type(s) found."
    /\ contains "Circle" (diag_message d) = true
    /\ contains "Patches" (diag_message d) = false
    /\ contains "MultiLine" (diag_message d) = false.
Proof.
  intros r1 r2 r3 self.
  exact (poly_draw_reports_only_circle self r1 r2 r3
           eq_refl eq_refl eq_refl eq_refl).
Defined.

(** ** The vertex-renderer validators *)

(** With a vertex renderer set, both vertex validators apply the vertex
    rule: a diagnostic naming the glyph type exactly when the glyph is not of
    the [XYGlyph] family. *)
Lemma vertex_renderer_set_report (draw : PolyDrawTool.t) (edit : PolyEditTool.t)
  (r : Renderer) :
  PolyDrawTool.vertex_renderer draw = Some r ->
  PolyEditTool.vertex_renderer edit = Some r ->
  outcome PolyDrawTool._check_compatible_vertex_renderer draw
    = Return (vertex_report r)
  /\ outcome PolyEditTool._check_compatible_vertex_renderer edit
    = Return (vertex_report r).
Proof.
  intros Hdraw Hedit. unfold outcome.
  rewrite PolyDrawTool_vertex_report, PolyEditTool_vertex_report.
  now rewrite Hdraw, Hedit.
Qed.

Lemma vertex_report_nil (r : Renderer) :
  vertex_report r = [] <-> isinstance (glyph r) XYGlyph = true.
Proof.
  unfold vertex_report. destruct (isinstance (glyph r) XYGlyph).
  - now split.
  - split; discriminate.
Qed.

(** C4: the vertex-renderer check is to return no diagnostic when
    [vertex_renderer] is unset.  [PolyDrawTool] does so, whatever its
    [renderers]; [PolyEditTool], which has no test for [None], raises an
    [AttributeError] instead of returning. *)
Theorem poly_edit_vertex_check_unset_raises (rs : list Renderer) :
  outcome PolyDrawTool._check_compatible_vertex_renderer
    (sample_poly_draw rs None) = Return []
  /\ outcome PolyEditTool._check_compatible_vertex_renderer
       (sample_poly_edit rs None)
     = Raise (AttributeError "'NoneType' object has no attribute 'glyph'").
Proof. split; reflexivity. Qed.

(** The [renderers] validator of every class returns normally. *)
Lemma check_compatible_renderers_returns (tool : Tool) :
  exists diagnostics, fst (check_compatible_renderers tool) = Return diagnostics.
Proof. rewrite check_compatible_renderers_report. now eexists. Qed.

(** C5: every compatibility check is to return normally for every
    configuration of [renderers] and [vertex_renderer].  On a [PolyEditTool]
    left at its defaults (no renderers, [vertex_renderer] unset) the vertex
    check does not return a result: the call ends in an exception. *)
Theorem poly_edit_default_vertex_check_aborts :
  let tool := PolyEdit (sample_poly_edit [] None) in
  check_compatible_vertex_renderer tool
  = Some (Raise (AttributeError "'NoneType' object has no attribute 'glyph'"),
          tool)
  /\ forall diagnostics tool',
       check_compatible_vertex_renderer tool <> Some (Return diagnostics, tool').
Proof.
  intros tool. split; [reflexivity|].
  intros diagnostics tool' H. discriminate H.
Qed.

(** ** Determinism and what the checks read *)

(** C8: running a compatibility check twice on the same tool yields
    identical results: a check hands the tool back unchanged, so the second
    run, on the tool the first run left, has the outcome of the first. *)
Theorem checks_repeatable (tool : Tool) :
  (forall result tool',
     check_compatible_renderers tool = (result, tool') ->
     tool' = tool /\ check_compatible_renderers tool' = (result, tool'))
  /\ (forall result tool',
        check_compatible_vertex_renderer tool = Some (result, tool') ->
        tool' = tool
        /\ check_compatible_vertex_renderer tool' = Some (result, tool')).
Proof.
  split; intros result tool' Hrun.
  - assert (Htool : tool' = tool).
    { rewrite check_compatible_renderers_report in Hrun. congruence. }
    subst tool'. split; [reflexivity | exact Hrun].
  - assert (Htool : tool' = tool).
    { destruct tool as [self|self|self|self|self]; simpl in Hrun;
        try discriminate Hrun; unfold call in Hrun.
      - rewrite PolyDrawTool_vertex_report in Hrun. congruence.
      - rewrite PolyEditTool_vertex_report in Hrun. congruence. }
    subst tool'. split; [reflexivity | exact Hrun].
Qed.

Lemma checks_repeatable_witness :
  let tool := PolyDraw (sample_poly_draw
                [renderer_of Circle "r1"] (Some (renderer_of Patches "v"))) in
  let first := check_compatible_renderers tool in
  let vfirst := call PolyDraw PolyDrawTool._check_compatible_vertex_renderer
                  (sample_poly_draw [renderer_of Circle "r1"]
                     (Some (renderer_of Patches "v"))) in
  check_compatible_renderers (snd first) = first
  /\ check_compatible_vertex_renderer (snd vfirst) = Some vfirst.
Proof.
  intros tool first vfirst.
  destruct (checks_repeatable tool) as [Hr Hv].
  split.
  - exact (proj2 (Hr (fst first) (snd first) eq_refl)).
  - exact (proj2 (Hv (fst vfirst) (snd vfirst) eq_refl)).
Defined.

(** C9: the freehand-draw renderer check and the poly-draw renderer check
    agree on every renderer list: both flag exactly the renderers whose glyph
    is neither a MultiLine nor a Patches, with the same message, and both
    report under the poly-draw error code. *)
Theorem freehand_draw_check_is_poly_draw_check
  (freehand : FreehandDrawTool.t) (draw : PolyDrawTool.t) :
  FreehandDrawTool.renderers freehand = PolyDrawTool.renderers draw ->
  outcome FreehandDrawTool._check_compatible_renderers freehand
    = outcome PolyDrawTool._check_compatible_renderers draw
  /\ outcome PolyDrawTool._check_compatible_renderers draw
     = Return (report INCOMPATIBLE_POLY_DRAW_RENDERER
                 (fun g => isinstance g MultiLine || isinstance g Patches)
                 (PolyDrawTool.renderers draw)).
Proof.
  intros Hrs. unfold outcome.
  rewrite FreehandDrawTool_renderers_report, PolyDrawTool_renderers_report, Hrs.
  split; [reflexivity|]. simpl fst.
  rewrite (report_ext INCOMPATIBLE_POLY_DRAW_RENDERER (allowed_glyph poly_draw)
             (fun g => isinstance g MultiLine || isinstance g Patches)).
  - reflexivity.
  - intros g. apply orb_comm.
Qed.

Lemma freehand_draw_check_is_poly_draw_check_witness :
  let rs := [renderer_of MultiLine "r1"; renderer_of Rect "r2";
             renderer_of Patches "r3"; renderer_of Circle "r4"] in
  let freehand := FreehandDrawTool.mk (edit_tool rs) 5%Z in
  let draw := sample_poly_draw rs (Some (renderer_of Circle "v")) in
  outcome FreehandDrawTool._check_compatible_renderers freehand
    = outcome PolyDrawTool._check_compatible_renderers draw
  /\ outcome PolyDrawTool._check_compatible_renderers draw
     = Return [mkDiagnostic INCOMPATIBLE_POLY_DRAW_RENDERER
                 "Rect, Circle glyph type(s) found."].
Proof.
  intros rs freehand draw.
  exact (freehand_draw_check_is_poly_draw_check freehand draw eq_refl).
Defined.

Lemma allowed_glyph_tag (k : ToolKind) (g1 g2 : Glyph) :
  type g1 = type g2 -> allowed_glyph k g1 = allowed_glyph k g2.
Proof.
  intros Htag. destruct k; unfold allowed_glyph, isinstance; now rewrite Htag.
Qed.

Lemma offending_names_tags (k : ToolKind) (rs1 rs2 : list Renderer) :
  map glyph_tag rs1 = map glyph_tag rs2 ->
  offending_names (allowed_glyph k) rs1 = offending_names (allowed_glyph k) rs2.
Proof.
  unfold offending_names. revert rs2.
  induction rs1 as [|r1 rs1 IH]; intros [|r2 rs2] Htags; simpl in Htags;
    try discriminate Htags; [reflexivity|].
  injection Htags as Htag Hrest. unfold glyph_tag in Htag. simpl.
  rewrite (allowed_glyph_tag k _ _ Htag).
  destruct (allowed_glyph k (glyph r2)); simpl.
  - now apply IH.
  - rewrite Htag. f_equal. now apply IH.
Qed.

Lemma vertex_report_tag (r1 r2 : Renderer) :
  glyph_tag r1 = glyph_tag r2 -> vertex_report r1 = vertex_report r2.
Proof.
  unfold glyph_tag, vertex_report, isinstance. intros Htag. now rewrite Htag.
Qed.

(** C10: two tools of the same kind whose [renderers] lists carry pointwise
    the same glyph variant tags and whose [vertex_renderer] is set or unset
    alike, with the same glyph tag, get identical results from the
    compatibility checks, whatever their other attributes. *)
Theorem checks_depend_on_glyph_tags_only (tool1 tool2 : Tool) :
  kind tool1 = kind tool2 ->
  map glyph_tag (renderers tool1) = map glyph_tag (renderers tool2) ->
  option_map glyph_tag (vertex_renderer tool1)
    = option_map glyph_tag (vertex_renderer tool2) ->
  fst (check_compatible_renderers tool1) = fst (check_compatible_renderers tool2)
  /\ option_map fst (check_compatible_vertex_renderer tool1)
     = option_map fst (check_compatible_vertex_renderer tool2).
Proof.
  intros Hkind Htags Hvertex. split.
  - rewrite !check_compatible_renderers_report. simpl fst.
    unfold report. rewrite Hkind.
    now rewrite (offending_names_tags (kind tool2) _ _ Htags).
  - destruct tool1 as [s1|s1|s1|s1|s1], tool2 as [s2|s2|s2|s2|s2];
      try discriminate Hkind; try reflexivity;
      simpl in Hvertex |- *; unfold call.
    + rewrite !PolyDrawTool_vertex_report. simpl.
      destruct (PolyDrawTool.vertex_renderer s1) as [r1|],
               (PolyDrawTool.vertex_renderer s2) as [r2|];
        simpl in Hvertex; try discriminate Hvertex; [|reflexivity].
      injection Hvertex as Htag. now rewrite (vertex_report_tag _ _ Htag).
    + rewrite !PolyEditTool_vertex_report. simpl.
      destruct (PolyEditTool.vertex_renderer s1) as [r1|],
               (PolyEditTool.vertex_renderer s2) as [r2|];
        simpl in Hvertex; try discriminate Hvertex; [|reflexivity].
      injection Hvertex as Htag. now rewrite (vertex_report_tag _ _ Htag).
Qed.

Lemma checks_depend_on_glyph_tags_only_witness :
  let tool1 := PolyDraw (PolyDrawTool.mk
                 (EditTool.mk (Some "draw") (IntValue 7) None
                    [renderer_of Patches "a"; renderer_of Circle "b"])
                 true 0%Z (Some (renderer_of Rect "v"))) in
  let tool2 := PolyDraw (PolyDrawTool.mk
                 (EditTool.mk None (BoolValue false) (Some "icon.png")
                    [renderer_of Patches "c"; renderer_of Circle "d"])
                 false 12%Z (Some (renderer_of Rect "w"))) in
  tool1 <> tool2
  /\ fst (check_compatible_renderers tool1) = fst (check_compatible_renderers tool2)
  /\ option_map fst (check_compatible_vertex_renderer tool1)
     = option_map fst (check_compatible_vertex_renderer tool2).
Proof.
  intros tool1 tool2. split; [discriminate|].
  exact (checks_depend_on_glyph_tags_only tool1 tool2 eq_refl eq_refl eq_refl).
Defined.

(** * Further properties of the validators *)

(** ** Strings *)

Lemma string_app_assoc (a b c : string) :
  ((a ++ b) ++ c = a ++ b ++ c)%string.
Proof. induction a as [|x a IH]; simpl; [reflexivity | now rewrite IH]. Qed.

Lemma string_app_nil_r (a : string) : (a ++ "" = a)%string.
Proof. induction a as [|x a IH]; simpl; [reflexivity | now rewrite IH]. Qed.

(** A string contains whatever stands between a beginning and an end. *)
Lemma contains_infix (pre sub post : string) :
  contains sub (pre ++ sub ++ post) = true.
Proof.
  induction pre as [|x pre IH].
  - exact (contains_prefix sub post).
  - rewrite contains_unfold.
    change (String x pre ++ sub ++ post)%string
      with (String x (pre ++ sub ++ post)%string).
    destruct (String.prefix sub (String x (pre ++ sub ++ post))); [reflexivity|].
    exact IH.
Qed.

(** Every part of a joined string occurs in it. *)
Lemma concat_In (sep name : string) (names : list string) :
  In name names ->
  exists pre post, (String.concat sep names = pre ++ name ++ post)%string.
Proof.
  induction names as [|h t IH]; intros Hin; [contradiction|].
  destruct Hin as [Heq|Hin].
  - subst h. exists "". destruct t as [|h' t'].
    + exists "". simpl. now rewrite string_app_nil_r.
    + now exists (sep ++ String.concat sep (h' :: t'))%string.
  - destruct (IH Hin) as (pre & post & E). destruct t as [|h' t']; [contradiction|].
    exists (h ++ sep ++ pre)%string, post.
    change (String.concat sep (h :: h' :: t'))
      with (h ++ sep ++ String.concat sep (h' :: t'))%string.
    rewrite E. now rewrite !string_app_assoc.
Qed.

(** Joining two non-empty lists joins their joined strings. *)
Lemma concat_app (sep : string) (l1 l2 : list string) :
  l1 <> [] -> l2 <> [] ->
  (String.concat sep (l1 ++ l2)
   = String.concat sep l1 ++ sep ++ String.concat sep l2)%string.
Proof.
  intros H1 H2. induction l1 as [|h t IH]; [contradiction|].
  destruct t as [|h' t'].
  - simpl. destruct l2; [contradiction | reflexivity].
  - change (String.concat sep ((h :: h' :: t') ++ l2))
      with (h ++ sep ++ String.concat sep ((h' :: t') ++ l2))%string.
    rewrite IH by discriminate.
    change (String.concat sep (h :: h' :: t'))
      with (h ++ sep ++ String.concat sep (h' :: t'))%string.
    now rewrite !string_app_assoc.
Qed.

(** ** Assignment to [renderers] *)

Lemma renderers_set_renderers (tool : Tool) (rs : list Renderer) :
  renderers (set_renderers tool rs) = rs.
Proof. now destruct tool. Qed.

Lemma kind_set_renderers (tool : Tool) (rs : list Renderer) :
  kind (set_renderers tool rs) = kind tool.
Proof. now destruct tool. Qed.

Lemma report_nil (code : ErrorCode) (compatible : Glyph -> bool)
  (rs : list Renderer) :
  report code compatible rs = [] <->
  Forall (fun r => compatible (glyph r) = true) rs.
Proof.
  rewrite <- offending_names_nil. unfold report.
  destruct (offending_names compatible rs); split; congruence.
Qed.

(** A tool passes the [renderers] check exactly when all its renderers are
    compatible. *)
Lemma check_passes_iff (tool : Tool) :
  fst (check_compatible_renderers tool) = Return [] <->
  Forall (fun r => allowed_glyph (kind tool) (glyph r) = true) (renderers tool).
Proof.
  rewrite check_compatible_renderers_report. simpl fst.
  rewrite <- report_nil. split; [intros H; injection H as H; exact H|].
  intros H. now rewrite H.
Qed.

Lemma offending_names_app (compatible : Glyph -> bool) (rs1 rs2 : list Renderer) :
  offending_names compatible (rs1 ++ rs2)
  = offending_names compatible rs1 ++ offending_names compatible rs2.
Proof. unfold offending_names. now rewrite filter_app, map_app. Qed.

(** X1: a tool whose [renderers] is the concatenation of two lists passes the
    renderer check exactly when it passes with each list alone. *)
Theorem renderers_app_passes (tool : Tool) (rs1 rs2 : list Renderer) :
  fst (check_compatible_renderers (set_renderers tool (rs1 ++ rs2))) = Return []
  <-> fst (check_compatible_renderers (set_renderers tool rs1)) = Return []
      /\ fst (check_compatible_renderers (set_renderers tool rs2)) = Return [].
Proof.
  rewrite !check_passes_iff, !renderers_set_renderers, !kind_set_renderers.
  apply Forall_app.
Qed.

(** X2: when two renderer lists are each rejected, their concatenation is
    rejected with one diagnostic whose message lists the names of the first
    message, then ", ", then the names of the second, then the suffix. *)
Theorem renderers_app_message (tool : Tool) (rs1 rs2 : list Renderer)
  (d1 d2 : Diagnostic) :
  fst (check_compatible_renderers (set_renderers tool rs1)) = Return [d1] ->
  fst (check_compatible_renderers (set_renderers tool rs2)) = Return [d2] ->
  exists body1 body2,
    diag_message d1 = (body1 ++ " glyph type(s) found.")%string
    /\ diag_message d2 = (body2 ++ " glyph type(s) found.")%string
    /\ fst (check_compatible_renderers (set_renderers tool (rs1 ++ rs2)))
       = Return [mkDiagnostic (renderers_error_code (kind tool))
                   (body1 ++ ", " ++ body2 ++ " glyph type(s) found.")].
Proof.
  rewrite !check_compatible_renderers_report, !renderers_set_renderers,
    !kind_set_renderers. simpl fst. unfold report.
  rewrite offending_names_app.
  destruct (offending_names _ rs1) as [|n1 ns1] eqn:E1; [discriminate|].
  destruct (offending_names _ rs2) as [|n2 ns2] eqn:E2; [discriminate|].
  intros H1 H2. injection H1 as <-. injection H2 as <-.
  exists (String.concat ", " (n1 :: ns1)), (String.concat ", " (n2 :: ns2)).
  split; [reflexivity|]. split; [reflexivity|].
  change ((n1 :: ns1) ++ n2 :: ns2) with (n1 :: (ns1 ++ n2 :: ns2)).
  unfold offenders_message.
  change (n1 :: (ns1 ++ n2 :: ns2)) with ((n1 :: ns1) ++ (n2 :: ns2)).
  rewrite concat_app by discriminate.
  now rewrite !string_app_assoc.
Qed.

Lemma renderers_app_message_witness :
  let tool := BoxEdit (sample_box_edit []) in
  let rs1 := [renderer_of Circle "r1"; renderer_of Rect "r2"] in
  let rs2 := [renderer_of Patches "r3"; renderer_of Circle "r4"] in
  exists body1 body2,
    (body1 ++ " glyph type(s) found." = "Circle glyph type(s) found.")%string
    /\ (body2 ++ " glyph type(s) found."
        = "Patches, Circle glyph type(s) found.")%string
    /\ fst (check_compatible_renderers (set_renderers tool (rs1 ++ rs2)))
       = Return [mkDiagnostic INCOMPATIBLE_BOX_EDIT_RENDERER
                   (body1 ++ ", " ++ body2 ++ " glyph type(s) found.")].
Proof.
  intros tool rs1 rs2.
  destruct (renderers_app_message tool rs1 rs2 _ _ eq_refl eq_refl)
    as (body1 & body2 & H1 & H2 & H).
  exists body1, body2. repeat split; [now rewrite <- H1 | now rewrite <- H2 | exact H].
Defined.

(** X3: the diagnostic names every offender: for each renderer of the tool
    whose glyph is not allowed, the message of the diagnostic contains the
    name of that glyph's type. *)
Theorem every_offender_is_named (tool : Tool) (r : Renderer) :
  In r (renderers tool) ->
  allowed_glyph (kind tool) (glyph r) = false ->
  exists d,
    fst (check_compatible_renderers tool) = Return [d]
    /\ contains (cls_name (type (glyph r))) (diag_message d) = true.
Proof.
  intros Hin Hbad.
  assert (Hex : Exists (fun r => allowed_glyph (kind tool) (glyph r) = false)
                  (renderers tool)) by (apply Exists_exists; eauto).
  assert (Hname : In (cls_name (type (glyph r)))
                    (offending_names (allowed_glyph (kind tool)) (renderers tool))).
  { unfold offending_names.
    apply (in_map (fun r => cls_name (type (glyph r)))).
    apply filter_In. split; [exact Hin | now rewrite Hbad]. }
  rewrite check_compatible_renderers_report. simpl fst. unfold report.
  destruct (offending_names_cons _ _ Hex) as (name & names & E).
  rewrite E in *. eexists. split; [reflexivity|]. simpl diag_message.
  unfold offenders_message.
  destruct (concat_In ", " _ _ Hname) as (pre & post & Hcat).
  rewrite Hcat, !string_app_assoc. apply contains_infix.
Qed.

Lemma every_offender_is_named_witness :
  let r := renderer_of Circle "r3" in
  let tool := FreehandDraw (FreehandDrawTool.mk
                (edit_tool [renderer_of Rect "r1"; renderer_of Patches "r2"; r])
                0%Z) in
  exists d,
    fst (check_compatible_renderers tool) = Return [d]
    /\ contains "Circle" (diag_message d) = true.
Proof.
  intros r tool.
  refine (every_offender_is_named tool r _ eq_refl).
  right. right. left. reflexivity.
Defined.




(** X6: removing from [renderers] every renderer whose glyph is not allowed
    gives a tool that passes the renderer check. *)
Theorem dropping_offenders_passes (tool : Tool) :
  fst (check_compatible_renderers
         (set_renderers tool
            (filter (fun r => allowed_glyph (kind tool) (glyph r))
               (renderers tool))))
  = Return [].
Proof.
  rewrite check_passes_iff, renderers_set_renderers, kind_set_renderers.
  apply Forall_forall. intros r Hin. now apply filter_In in Hin.
Qed.

(** X7: on equal renderer lists the poly-draw, freehand-draw and poly-edit
    checks flag the same renderers with the same message; the first two
    report under the poly-draw error code, poly-edit under its own. *)
Theorem poly_tools_same_messages
  (draw : PolyDrawTool.t) (freehand : FreehandDrawTool.t) (edit : PolyEditTool.t) :
  PolyDrawTool.renderers draw = PolyEditTool.renderers edit ->
  FreehandDrawTool.renderers freehand = PolyEditTool.renderers edit ->
  exists ds de,
    outcome PolyDrawTool._check_compatible_renderers draw = Return ds
    /\ outcome FreehandDrawTool._check_compatible_renderers freehand = Return ds
    /\ outcome PolyEditTool._check_compatible_renderers edit = Return de
    /\ map diag_message ds = map diag_message de
    /\ Forall (fun d => diag_code d = INCOMPATIBLE_POLY_DRAW_RENDERER) ds
    /\ Forall (fun d => diag_code d = INCOMPATIBLE_POLY_EDIT_RENDERER) de.
Proof.
  intros Hdraw Hfree. unfold outcome.
  rewrite PolyDrawTool_renderers_report, FreehandDrawTool_renderers_report,
    PolyEditTool_renderers_report, Hdraw, Hfree. simpl fst.
  do 2 eexists. do 3 (split; [reflexivity|]).
  unfold report, allowed_glyph.
  destruct (offending_names _ _); repeat constructor.
Qed.

Lemma poly_tools_same_messages_witness :
  let rs := [renderer_of Circle "r1"; renderer_of Patches "r2"] in
  exists ds de,
    outcome PolyDrawTool._check_compatible_renderers (sample_poly_draw rs None)
      = Return ds
    /\ outcome FreehandDrawTool._check_compatible_renderers
         (FreehandDrawTool.mk (edit_tool rs) 0%Z) = Return ds
    /\ outcome PolyEditTool._check_compatible_renderers (sample_poly_edit rs None)
       = Return de
    /\ map diag_message ds = map diag_message de
    /\ Forall (fun d => diag_code d = INCOMPATIBLE_POLY_DRAW_RENDERER) ds
    /\ Forall (fun d => diag_code d = INCOMPATIBLE_POLY_EDIT_RENDERER) de.
Proof.
  intros rs.
  exact (poly_tools_same_messages (sample_poly_draw rs None)
           (FreehandDrawTool.mk (edit_tool rs) 0%Z) (sample_poly_edit rs None)
           eq_refl eq_refl).
Defined.

(** X8: with the same vertex renderer set, the vertex checks of
    [PolyDrawTool] and [PolyEditTool] return the same result: no diagnostic
    when the glyph is of the [XYGlyph] family, and otherwise one diagnostic,
    under the poly-edit vertex code, with message "glyph type NAME found."
    for the glyph's type name. *)
Theorem vertex_checks_agree_when_set
  (draw : PolyDrawTool.t) (edit : PolyEditTool.t) (r : Renderer) :
  PolyDrawTool.vertex_renderer draw = Some r ->
  PolyEditTool.vertex_renderer edit = Some r ->
  outcome PolyDrawTool._check_compatible_vertex_renderer draw
    = outcome PolyEditTool._check_compatible_vertex_renderer edit
  /\ outcome PolyEditTool._check_compatible_vertex_renderer edit
     = Return (if isinstance (glyph r) XYGlyph then []
               else [mkDiagnostic INCOMPATIBLE_POLY_EDIT_VERTEX_RENDERER
                       ("glyph type " ++ cls_name (type (glyph r)) ++ " found.")]).
Proof.
  intros Hdraw Hedit. unfold outcome.
  rewrite PolyDrawTool_vertex_report, PolyEditTool_vertex_report, Hdraw, Hedit.
  split; reflexivity.
Qed.

Lemma vertex_checks_agree_when_set_witness :
  let r := renderer_of Patches "v" in
  outcome PolyDrawTool._check_compatible_vertex_renderer
    (sample_poly_draw [] (Some r))
    = outcome PolyEditTool._check_compatible_vertex_renderer
        (sample_poly_edit [renderer_of Circle "r1"] (Some r))
  /\ outcome PolyEditTool._check_compatible_vertex_renderer
       (sample_poly_edit [renderer_of Circle "r1"] (Some r))
     = Return [mkDiagnostic INCOMPATIBLE_POLY_EDIT_VERTEX_RENDERER
                 "glyph type Patches found."].
Proof.
  intros r.
  exact (vertex_checks_agree_when_set (sample_poly_draw [] (Some r))
           (sample_poly_edit [renderer_of Circle "r1"] (Some r)) r
           eq_refl eq_refl).
Defined.

(** X9: the vertex check of [PolyDrawTool] always returns; the vertex check
    of [PolyEditTool] raises exactly when [vertex_renderer] is unset, and the
    exception is then the [AttributeError] of reading [glyph] on [None]. *)
Theorem vertex_check_raises_iff_unset
  (draw : PolyDrawTool.t) (edit : PolyEditTool.t) :
  (exists ds, outcome PolyDrawTool._check_compatible_vertex_renderer draw
              = Return ds)
  /\ (PolyEditTool.vertex_renderer edit = None <->
      exists e, outcome PolyEditTool._check_compatible_vertex_renderer edit
                = Raise e)
  /\ (forall e, outcome PolyEditTool._check_compatible_vertex_renderer edit
                = Raise e ->
                e = AttributeError "'NoneType' object has no attribute 'glyph'").
Proof.
  unfold outcome.
  rewrite PolyDrawTool_vertex_report, PolyEditTool_vertex_report. simpl fst.
  split; [now eexists|].
  destruct (PolyEditTool.vertex_renderer edit) as [r|]; split.
  - split; [discriminate | intros [e H]; discriminate H].
  - intros e H. discriminate H.
  - split; [now eexists | reflexivity].
  - intros e H. now injection H as <-.
Qed.

(** X10: the renderer check does not look at [vertex_renderer], and the
    vertex check does not look at [renderers]: two tools of the same class
    with equal [renderers] get the same result from the renderer check, and
    two with equal [vertex_renderer] the same result from the vertex check,
    whatever their other attributes. *)
Theorem checks_read_their_own_attribute (tool1 tool2 : Tool) :
  kind tool1 = kind tool2 ->
  (renderers tool1 = renderers tool2 ->
   fst (check_compatible_renderers tool1) = fst (check_compatible_renderers tool2))
  /\ (vertex_renderer tool1 = vertex_renderer tool2 ->
      option_map fst (check_compatible_vertex_renderer tool1)
      = option_map fst (check_compatible_vertex_renderer tool2)).
Proof.
  intros Hkind. split.
  - intros Hrs. rewrite !check_compatible_renderers_report. simpl fst.
    now rewrite Hkind, Hrs.
  - intros Hv.
    destruct tool1 as [s1|s1|s1|s1|s1], tool2 as [s2|s2|s2|s2|s2];
      try discriminate Hkind; try reflexivity;
      simpl in Hv |- *; unfold call.
    + rewrite !PolyDrawTool_vertex_report. simpl. now rewrite Hv.
    + rewrite !PolyEditTool_vertex_report. simpl. now rewrite Hv.
Qed.

Lemma checks_read_their_own_attribute_witness :
  let tool1 := PolyEdit (sample_poly_edit [renderer_of Circle "r1"] None) in
  let tool2 := PolyEdit (sample_poly_edit [renderer_of Circle "r1"]
                           (Some (renderer_of Circle "v"))) in
  let tool3 := PolyEdit (sample_poly_edit [] (Some (renderer_of Circle "v"))) in
  fst (check_compatible_renderers tool1) = fst (check_compatible_renderers tool2)
  /\ option_map fst (check_compatible_vertex_renderer tool2)
     = option_map fst (check_compatible_vertex_renderer tool3).
Proof.
  intros tool1 tool2 tool3. split.
  - exact (proj1 (checks_read_their_own_attribute tool1 tool2 eq_refl) eq_refl).
  - exact (proj2 (checks_read_their_own_attribute tool2 tool3 eq_refl) eq_refl).
Defined.

(** * [RangeTool] *)

(** X11: the range check never raises and leaves the tool as it was; it
    returns its message exactly when both [x_range] and [y_range] are unset,
    so configuring either range is enough, whatever the interaction flags
    and the overlay. *)
Theorem range_tool_check_iff (self : RangeTool.t) :
  exists result,
    RangeTool._check_no_range_tool_ranges self = (Return result, self)
    /\ (result = None <->
        RangeTool.x_range self <> None \/ RangeTool.y_range self <> None)
    /\ (result <> None ->
        result = Some "At least one of RangeTool.x_range or RangeTool.y_range must be configured").
Proof.
  destruct self as [[x|] xi [y|] yi o];
    cbv [RangeTool._check_no_range_tool_ranges RangeTool.x_range
         RangeTool.y_range bind getattr ret is_None];
    eexists; (split; [reflexivity|]); split;
    try (split; [intros _; (left; discriminate) || (right; discriminate)
                | reflexivity]);
    try (intros H; now elim H).
  - split; [discriminate|]. intros [H|H]; now elim H.
  - reflexivity.
Qed.

(** * [CustomJSHover.from_py_func] *)

Import CustomJSHover.

(** ** Dictionaries *)

Lemma PyDict_set_fresh {V} (d : PyDict.t V) (k : string) (v : V) :
  ~ In k (PyDict.keys d) -> PyDict.set d k v = d ++ [(k, v)].
Proof.
  induction d as [|[k' v'] d IH]; simpl; intros Hfresh; [reflexivity|].
  destruct (String.eqb_spec k k') as [->|_].
  - elim Hfresh. now left.
  - rewrite IH; [reflexivity|]. intros Hin. apply Hfresh. now right.
Qed.

Lemma PyDict_fold_nodup {V} (pairs acc : list (string * V)) :
  NoDup (PyDict.keys acc ++ map fst pairs) ->
  fold_left (fun d kv => PyDict.set d (fst kv) (snd kv)) pairs acc
  = acc ++ pairs.
Proof.
  revert acc. induction pairs as [|[k v] pairs IH]; intros acc Hnd; simpl.
  - now rewrite app_nil_r.
  - simpl in Hnd. rewrite PyDict_set_fresh.
    + rewrite IH.
      * now rewrite <- app_assoc.
      * unfold PyDict.keys in *. rewrite map_app, <- app_assoc. exact Hnd.
    + apply NoDup_remove_2 in Hnd. intros Hin. apply Hnd.
      apply in_or_app. now left.
Qed.

(** [dict] of pairs with distinct keys keeps the pairs as they are. *)
Lemma PyDict_of_pairs_nodup {V} (pairs : list (string * V)) :
  NoDup (map fst pairs) -> PyDict.of_pairs pairs = pairs.
Proof. intros Hnd. unfold PyDict.of_pairs. now rewrite PyDict_fold_nodup. Qed.

Lemma PyDict_get_combine {V} (names : list string) (values : list V)
  (i : nat) (name : string) (value : V) :
  NoDup names ->
  nth_error names i = Some name -> nth_error values i = Some value ->
  PyDict.get (combine names values) name = Some value.
Proof.
  revert values i. induction names as [|h t IH]; intros values i Hnd Hn Hv.
  - now destruct i.
  - destruct values as [|d ds]; [now destruct i|].
    inversion Hnd as [|? ? Hnotin Hnd']; subst. simpl.
    destruct i as [|j]; simpl in Hn, Hv.
    + injection Hn as ->. injection Hv as ->. now rewrite String.eqb_refl.
    + destruct (String.eqb_spec name h) as [->|_].
      * elim Hnotin. now apply (nth_error_In t j).
      * now apply (IH ds j).
Qed.

Lemma map_fst_combine {A B} (l1 : list A) (l2 : list B) :
  List.length l1 = List.length l2 -> map fst (combine l1 l2) = l1.
Proof.
  revert l2. induction l1 as [|a l1 IH]; intros [|b l2] Hlen; simpl in *;
    try discriminate; [reflexivity|]. f_equal. apply IH. now injection Hlen.
Qed.

Lemma map_snd_combine {A B} (l1 : list A) (l2 : list B) :
  List.length l1 = List.length l2 -> map snd (combine l1 l2) = l2.
Proof.
  revert l2. induction l1 as [|a l1 IH]; intros [|b l2] Hlen; simpl in *;
    try discriminate; [reflexivity|]. f_equal. apply IH. now injection Hlen.
Qed.

Lemma existsb_false_Forall {A} (f : A -> bool) (l : list A) :
  existsb f l = false <-> Forall (fun x => f x = false) l.
Proof.
  induction l as [|x l IH]; simpl.
  - split; [constructor | reflexivity].
  - rewrite orb_false_iff, IH. split.
    + intros [Hx Hl]. now constructor.
    + intros H. now inversion H.
Qed.

Lemma existsb_true_Exists {A} (f : A -> bool) (l : list A) :
  existsb f l = true <-> Exists (fun x => f x = true) l.
Proof.
  rewrite existsb_exists, Exists_exists. reflexivity.
Qed.

Lemma len_diff_zero {A B} (l1 : list A) (l2 : list B) :
  (len l1 - len l2 =? 0)%Z = true <-> List.length l1 = List.length l2.
Proof. unfold len. rewrite Z.eqb_eq. lia. Qed.

(** ** [pscript_compile] *)


(** The three ways [pscript_compile] ends. *)
Lemma pscript_compile_cases (pscript : PScript) (code : PyFunction) :
  let names := fst (param_info code) in
  let defaults := snd (param_info code) in
  let is_model := fun value => issubclass (ob_type value) Model in
  (List.length names <> List.length defaults
   /\ pscript_compile pscript code
      = Raises (ValueError "Function may only contain keyword arguments."))
  \/ (List.length names = List.length defaults
      /\ defaults <> []
      /\ Forall (fun value => is_model value = false) defaults
      /\ pscript_compile pscript code
         = Raises (ValueError "Default value must be a Bokeh Model."))
  \/ (List.length names = List.length defaults
      /\ (defaults = [] \/ Exists (fun value => is_model value = true) defaults)
      /\ pscript_compile pscript code
         = Returns ((py2js pscript code "transformer" ++ "return transformer("
                     ++ String.concat ", " names ++ ");" ++ newline)%string,
                    PyDict.of_pairs (combine names defaults))).
Proof.
  unfold pscript_compile. destruct (param_info code) as [names defaults].
  cbn [fst snd]. cbv zeta.
  destruct (len names - len defaults =? 0)%Z eqn:Elen; cbn [negb].
  - apply len_diff_zero in Elen. right.
    destruct defaults as [|d ds].
    + right. cbn [truthy andb]. split; [exact Elen|]. split; [now left | reflexivity].
    + cbn [truthy andb].
      destruct (existsb _ (d :: ds)) eqn:Eany; cbn [negb].
      * right. split; [exact Elen|]. split; [|reflexivity].
        right. now apply existsb_true_Exists.
      * left. split; [exact Elen|]. split; [discriminate|].
        split; [now apply existsb_false_Forall | reflexivity].
  - left. split; [|reflexivity].
    intros H. apply len_diff_zero in H. congruence.
Qed.


Lemma pscript_compile_returned (pscript : PScript) (code : PyFunction)
  (js : string) (kwargs : PyDict.t PyObject) :
  pscript_compile pscript code = Returns (js, kwargs) ->
  List.length (fst (param_info code)) = List.length (snd (param_info code))
  /\ kwargs = PyDict.of_pairs
                (combine (fst (param_info code)) (snd (param_info code)))
  /\ js = (py2js pscript code "transformer" ++ "return transformer("
           ++ String.concat ", " (fst (param_info code)) ++ ");" ++ newline)%string.
Proof.
  intros Hret.
  destruct (pscript_compile_cases pscript code)
    as [[_ Hrun]|[(_ & _ & _ & Hrun)|(Hlen & _ & Hrun)]];
    rewrite Hrun in Hret; try discriminate Hret.
  injection Hret as <- <-. now split.
Qed.

(** X13: when [pscript_compile] returns for a function whose parameter names
    are distinct, the returned dictionary has the parameter names as keys, in
    order, each bound to the default value at the same position, and the
    returned code is the translation of the function followed by a return
    statement calling [transformer] with the parameter names, comma
    separated. *)
Theorem pscript_compile_kwargs (pscript : PScript) (code : PyFunction)
  (js : string) (kwargs : PyDict.t PyObject) :
  pscript_compile pscript code = Returns (js, kwargs) ->
  NoDup (fst (param_info code)) ->
  PyDict.keys kwargs = fst (param_info code)
  /\ map snd kwargs = snd (param_info code)
  /\ (forall i name value,
        nth_error (fst (param_info code)) i = Some name ->
        nth_error (snd (param_info code)) i = Some value ->
        PyDict.get kwargs name = Some value)
  /\ js = (py2js pscript code "transformer" ++ "return transformer("
           ++ String.concat ", " (fst (param_info code)) ++ ");" ++ newline)%string.
Proof.
  intros Hret Hnd.
  destruct (pscript_compile_returned _ _ _ _ Hret) as (Hlen & -> & ->).
  rewrite PyDict_of_pairs_nodup by now rewrite map_fst_combine.
  unfold PyDict.keys. rewrite map_fst_combine, map_snd_combine by exact Hlen.
  repeat split.
  intros i name value Hn Hv. now apply (PyDict_get_combine _ _ i).
Qed.


Lemma pscript_compile_kwargs_witness :
  let source := mkObject (mkClass "bokeh.models.sources.ColumnDataSource"
                            "ColumnDataSource" [cls_id Model]) "source" in
  let three := mkObject (mkClass "builtins.int" "int" []) "3" in
  let code := mkFunction "fmt" (["source"; "digits"], [source; three]) in
  let pscript := mkPScript (fun f name => ("var " ++ name ++ ";")%string) in
  let js := ("var transformer;return transformer(source, digits);"
             ++ newline)%string in
  let kwargs := [("source", source); ("digits", three)] in
  pscript_compile pscript code = Returns (js, kwargs)
  /\ PyDict.keys kwargs = ["source"; "digits"]
  /\ PyDict.get kwargs "digits" = Some three.
Proof.
  intros source three code pscript js kwargs.
  assert (Hret : pscript_compile pscript code = Returns (js, kwargs))
    by reflexivity.
  assert (Hnd : NoDup (fst (param_info code))).
  { repeat constructor; simpl; intuition discriminate. }
  destruct (pscript_compile_kwargs pscript code js kwargs Hret Hnd)
    as (Hkeys & _ & Hget & _).
  split; [exact Hret|]. split; [exact Hkeys|].
  exact (Hget 1%nat "digits" three eq_refl eq_refl).
Defined.


(** ** [from_py_func] *)


